(** * create_assets.py: the minimal PNG writer

    A shallow embedding of [create_simple_png] and of its local helper
    [write_png_chunk] (src/create_assets.py, lines 38-74), together with the
    parts of Python they rest on: [struct.pack] for the formats ['>I'] and
    ['>IIBBBBB'], the [bytearray] buffer, attribute lookup of [write] on the
    object the helper receives, and the two exceptions these can raise.

    Python integers are unbounded, so they are [Z]; byte strings are lists of
    [Byte.byte]; a call either returns a value or raises. *)

From Stdlib Require Import Ascii String.
From Stdlib Require Import ZArith List Lia Bool.
From Stdlib Require Import Strings.Byte.
Import ListNotations.
Local Open Scope Z_scope.

(** ** Exceptions and results *)

(** The two exceptions the encoder can raise: [struct.error] from
    [struct.pack] on a value that does not fit its format, and
    [AttributeError] from looking up a method an object does not have. *)
Inductive exn : Type :=
| struct_error
| AttributeError.

Inductive result (A : Type) : Type :=
| Ok (a : A)
| Raise (e : exn).

Arguments Ok {A} a.
Arguments Raise {A} e.

Definition bind {A B : Type} (r : result A) (k : A -> result B) : result B :=
  match r with
  | Ok a => k a
  | Raise e => Raise e
  end.

Notation "x <- c ;; k" := (bind c (fun x => k))
  (at level 61, c at next level, right associativity).

(** ** Byte strings *)

Definition bytes : Type := list byte.

(** The integer a byte iterates as ([for byte in chunk_type + data]). *)
Definition byte_val (b : byte) : Z := Z.of_N (Byte.to_N b).

(** The byte holding the low eight bits of [z]. *)
Definition byte_of_Z (z : Z) : byte :=
  match Byte.of_N (Z.to_N (Z.land z 255)) with
  | Some b => b
  | None => x00
  end.

(** ** struct.pack *)

Module Struct.

(** Four bytes, most significant first (format ['>I'] on a value in range). *)
Definition be32 (v : Z) : bytes :=
  [ byte_of_Z (Z.shiftr v 24); byte_of_Z (Z.shiftr v 16);
    byte_of_Z (Z.shiftr v 8); byte_of_Z v ].

(** [struct.pack('>I', v)]: raises unless [0 <= v <= 4294967295]. *)
Definition pack_I (v : Z) : result bytes :=
  if (0 <=? v) && (v <=? 0xffffffff) then Ok (be32 v) else Raise struct_error.

(** One ['B'] field: raises unless [0 <= v <= 255]. *)
Definition pack_B (v : Z) : result bytes :=
  if (0 <=? v) && (v <=? 255) then Ok [byte_of_Z v] else Raise struct_error.

(** [struct.pack('>IIBBBBB', a, b, c, d, e, f, g)]. *)
Definition pack_IIBBBBB (a b c d e f g : Z) : result bytes :=
  a' <- pack_I a ;;
  b' <- pack_I b ;;
  c' <- pack_B c ;;
  d' <- pack_B d ;;
  e' <- pack_B e ;;
  f' <- pack_B f ;;
  g' <- pack_B g ;;
  Ok (a' ++ b' ++ c' ++ d' ++ e' ++ f' ++ g').

End Struct.

(** ** Objects with (or without) a [write] method *)

(** [write_png_chunk] is duck-typed in its first parameter [f]: all it does
    with it is evaluate [f.write] and call the result on a byte string.
    Looking the attribute up can raise; calling the bound method returns the
    object in its new state. *)
Class Writable (F : Type) : Type :=
  getattr_write : F -> result (bytes -> result F).

(** [bytearray]: a mutable byte buffer, modelled by its contents.  It has
    [extend] (used on line 61) and no attribute [write]: the lookup raises
    [AttributeError]. *)
Record bytearray : Type := Bytearray { ba_bytes : bytes }.

Definition bytearray_new : bytearray := Bytearray [].

Definition extend (b : bytearray) (bs : bytes) : bytearray :=
  Bytearray (ba_bytes b ++ bs).

#[export] Instance bytearray_Writable : Writable bytearray :=
  fun _ => Raise AttributeError.

(** A binary stream (an open binary file, [io.BytesIO]): [write] appends. *)
Record stream : Type := Stream { getvalue : bytes }.

#[export] Instance stream_Writable : Writable stream :=
  fun s => Ok (fun bs => Ok (Stream (getvalue s ++ bs))).

(** ** write_png_chunk (lines 43-55) *)

(** The body of [for _ in range(8)]: lines 51-54. *)
Definition crc_step (crc : Z) : Z :=
  if negb (Z.land crc 1 =? 0)
  then Z.lxor (Z.shiftr crc 1) 0xedb88320
  else Z.shiftr crc 1.

(** The body of [for byte in chunk_type + data]: lines 49-54. *)
Definition crc_byte (crc : Z) (b : byte) : Z :=
  Nat.iter 8 crc_step (Z.lxor crc (byte_val b)).

(** Lines 47-54: the running value after the loop. *)
Definition crc_loop (bs : bytes) : Z :=
  fold_left crc_byte bs 0xffffffff.

(** In [f.write(struct.pack(...))] Python evaluates [f.write] before the
    argument, so the lookup comes first in each statement. *)
Definition write_png_chunk {F : Type} `{Writable F}
    (f : F) (chunk_type data : bytes) : result F :=
  w <- getattr_write f ;;
  len <- Struct.pack_I (Z.of_nat (length data)) ;;
  f <- w len ;;
  w <- getattr_write f ;;
  f <- w chunk_type ;;
  w <- getattr_write f ;;
  f <- w data ;;
  let crc := crc_loop (chunk_type ++ data) in
  w <- getattr_write f ;;
  sum <- Struct.pack_I (Z.lxor crc 0xffffffff) ;;
  w sum.

(** ** create_simple_png (lines 38-74) *)

(** An RGB triple, as the callers pass it: [(255, 215, 0)]. *)
Definition rgb : Type := (Z * Z * Z)%type.

(** [b'\x89PNG\r\n\x1a\n'] *)
Definition signature : bytes := [x89; x50; x4e; x47; x0d; x0a; x1a; x0a].

Definition IHDR : bytes := [x49; x48; x44; x52].
Definition IDAT : bytes := [x49; x44; x41; x54].
Definition IEND : bytes := [x49; x45; x4e; x44].

(** [b'\x78\x9c\x62\x00\x00\x00\x02\x00\x01'] *)
Definition idat_data : bytes := [x78; x9c; x62; x00; x00; x00; x02; x00; x01].

Definition create_simple_png (width height : Z) (color : rgb) : result bytes :=
  let png_data := bytearray_new in
  let png_data := extend png_data signature in
  ihdr_data <- Struct.pack_IIBBBBB width height 8 2 0 0 0 ;;
  png_data <- write_png_chunk png_data IHDR ihdr_data ;;
  png_data <- write_png_chunk png_data IDAT idat_data ;;
  png_data <- write_png_chunk png_data IEND [] ;;
  Ok (ba_bytes png_data).

(** The colours of the calls in [create_placeholder_files] (lines 19-34),
    and the black of the 1 x 1 reference image. *)
Definition gold : rgb := (255, 215, 0).
Definition forest_green : rgb := (34, 139, 34).
Definition sky_blue : rgb := (135, 206, 235).
Definition black : rgb := (0, 0, 0).

(** ** The reference CRC-32

    The checksum of the PNG specification (its sample code, also zlib's
    [crc32]): a table of 256 entries, entry [n] being [n] divided eight times
    by the reflected polynomial [0xEDB88320]; a running value that starts at
    [0xFFFFFFFF], is updated one byte at a time through the table, and is
    complemented at the end. *)

Definition crc_poly : Z := 0xedb88320.

Definition crc_shift (c : Z) : Z :=
  Z.lxor (Z.shiftr c 1) (if Z.odd c then crc_poly else 0).

Definition make_crc_table : list Z :=
  map (fun n => Nat.iter 8 crc_shift (Z.of_nat n)) (seq 0 256).

Definition crc_table : list Z := Eval vm_compute in make_crc_table.

Definition update_crc (c : Z) (b : byte) : Z :=
  Z.lxor (nth (Z.to_nat (Z.land (Z.lxor c (byte_val b)) 255)) crc_table 0)
         (Z.shiftr c 8).

Definition crc32 (bs : bytes) : Z :=
  Z.lxor (fold_left update_crc bs 0xffffffff) 0xffffffff.

(** The chunk layout of the PNG format: length, type, data, checksum. *)
Definition chunk (chunk_type data : bytes) : bytes :=
  Struct.be32 (Z.of_nat (length data)) ++ chunk_type ++ data
    ++ Struct.be32 (crc32 (chunk_type ++ data)).

(** Reading a big-endian field back. *)
Definition be_decode (bs : bytes) : Z :=
  fold_left (fun acc b => acc * 256 + byte_val b) bs 0.

(** The bytes of a window of the checked string as one number, first byte
    lowest: the order in which the loop of lines 48-54 feeds them into the
    low end of the running value. *)
Fixpoint le_word (m : bytes) : Z :=
  match m with
  | [] => 0
  | b :: m' => Z.lxor (byte_val b) (Z.shiftl (le_word m') 8)
  end.

(** ** create_png (lines 9-13) and base64.b64decode *)

(** What [base64.b64decode] gives: the decoded bytes, or one of its two
    exceptions ([ValueError] for a string with non-ASCII characters,
    [binascii.Error] for a wrong number of data characters or padding). *)
Inductive decoded : Type :=
| Decoded (bs : bytes)
| binascii_Error
| ValueError.

(** The value of a character of the standard alphabet. *)
Definition b64_value (ch : ascii) : option Z :=
  let n := Z.of_N (N_of_ascii ch) in
  if (65 <=? n) && (n <=? 90) then Some (n - 65)
  else if (97 <=? n) && (n <=? 122) then Some (n - 71)
  else if (48 <=? n) && (n <=? 57) then Some (n + 4)
  else if n =? 43 then Some 62
  else if n =? 47 then Some 63
  else None.

(** The loop of [binascii.a2b_base64] without strict mode: characters
    outside the alphabet are skipped, every full group of four gives three
    bytes, and padding that completes a group ends the decoding. *)
Fixpoint a2b_base64 (s : string) (quad_pos leftchar pads : Z) (out : bytes)
    : decoded :=
  match s with
  | EmptyString =>
      if quad_pos =? 0 then Decoded out else binascii_Error
  | String ch rest =>
      if (N_of_ascii ch =? 61)%N then
        if (2 <=? quad_pos) && (4 <=? quad_pos + (pads + 1)) then Decoded out
        else a2b_base64 rest quad_pos leftchar
               (if 2 <=? quad_pos then pads + 1 else pads) out
      else
        match b64_value ch with
        | None => a2b_base64 rest quad_pos leftchar pads out
        | Some v =>
            if quad_pos =? 0 then a2b_base64 rest 1 v 0 out
            else if quad_pos =? 1 then
              a2b_base64 rest 2 (Z.land v 15) 0
                (out ++ [byte_of_Z (Z.lor (Z.shiftl leftchar 2) (Z.shiftr v 4))])
            else if quad_pos =? 2 then
              a2b_base64 rest 3 (Z.land v 3) 0
                (out ++ [byte_of_Z (Z.lor (Z.shiftl leftchar 4) (Z.shiftr v 2))])
            else
              a2b_base64 rest 0 0 0
                (out ++ [byte_of_Z (Z.lor (Z.shiftl leftchar 6) v)])
        end
  end.

Fixpoint is_ascii (s : string) : bool :=
  match s with
  | EmptyString => true
  | String ch rest => (N_of_ascii ch <? 128)%N && is_ascii rest
  end.

Definition b64decode (s : string) : decoded :=
  if is_ascii s then a2b_base64 s 0 0 0 [] else ValueError.

(** The literal of line 12; the f-string has no replacement field. *)
Definition png_data : string :=
  "iVBORw0KGgoAAAANSUhEUgAAAAEAAAABCAYAAAAfFcSJAAAADUlEQVR42mNkYPhfDwAChwGA60e6kgAAAABJRU5ErkJggg==".

Definition create_png (width height : Z) (color : rgb) : decoded :=
  b64decode png_data.

(** The bytes one call of [write_png_chunk] is written to produce (lines
    44-55): length, type, data, and the packed checksum of the loop. *)
Definition framed (chunk_type data : bytes) : bytes :=
  Struct.be32 (Z.of_nat (length data)) ++ chunk_type ++ data
    ++ Struct.be32 (Z.lxor (crc_loop (chunk_type ++ data)) 0xffffffff).

(** ** create_placeholder_files (lines 16-36) and the script (lines 4-6, 76-79)

    The script acts on a file system and on standard output.  What
    [os.makedirs] and writing a file do to the file system is left open: a
    file system is any type, and the two operations are any functions that
    change it and return or raise [OSError].  Standard output is the list of
    lines printed. *)

Inductive raised : Type :=
| Encoder (e : exn)
| OSError.

Inductive outcome (A : Type) : Type :=
| Returned (a : A)
| Raised (e : raised).

Arguments Returned {A} a.
Arguments Raised {A} e.

Record world (FS : Type) : Type := World { files : FS; stdout : list string }.

Arguments World {FS} files stdout.
Arguments files {FS} w.
Arguments stdout {FS} w.

Definition io (FS A : Type) : Type := world FS -> outcome A * world FS.

Definition io_bind {FS A B : Type} (c : io FS A) (k : A -> io FS B) : io FS B :=
  fun w =>
    match c w with
    | (Returned a, w') => k a w'
    | (Raised e, w') => (Raised e, w')
    end.

Notation "x <~ c ;; k" := (io_bind c (fun x => k))
  (at level 61, c at next level, right associativity).
Notation "c >> k" := (io_bind c (fun _ => k))
  (at level 61, right associativity).

(** [print(line)]: the line is added to standard output, or the write
    fails and [OSError] is raised.  Which of the two happens is left open: it
    is asked of [stdout_fails], given the line and what was printed so far. *)
Definition print {FS : Type} (stdout_fails : string -> list string -> bool)
    (line : string) : io FS unit :=
  fun w =>
    if stdout_fails line (stdout w)
    then (Raised OSError, w)
    else (Returned tt, World (files w) (stdout w ++ [line])).

(** An operation of the file system, run in the world. *)
Definition on_files {FS : Type} (op : FS -> outcome unit * FS) : io FS unit :=
  fun w => let (r, f) := op (files w) in (r, World f (stdout w)).

(** A call of the encoder: its value, or its exception, propagated. *)
Definition call {FS A : Type} (r : result A) : io FS A :=
  fun w =>
    (match r with Ok a => Returned a | Raise e => Raised (Encoder e) end, w).

Section Script.

Variable FS : Type.

(** [os.makedirs(path, exist_ok=True)] *)
Variable makedirs : string -> FS -> outcome unit * FS.

(** [with open(path, 'wb') as f: f.write(data)] *)
Variable write_file : string -> bytes -> FS -> outcome unit * FS.

(** Whether printing a line fails, given what was printed so far. *)
Variable stdout_fails : string -> list string -> bool.

Definition create_placeholder_files : io FS unit :=
  bird_png <~ call (create_simple_png 40 40 gold) ;;
  on_files (write_file "assets/sprites/bird.png" bird_png) >>
  top_pipe_png <~ call (create_simple_png 80 200 forest_green) ;;
  on_files (write_file "assets/sprites/pipe-top.png" top_pipe_png) >>
  bottom_pipe_png <~ call (create_simple_png 80 200 forest_green) ;;
  on_files (write_file "assets/sprites/pipe-bottom.png" bottom_pipe_png) >>
  background_png <~ call (create_simple_png 800 600 sky_blue) ;;
  on_files (write_file "assets/sprites/background.png" background_png).

(** The module run as a script: the two [os.makedirs] of lines 5-6, then
    the body of [if __name__ == "__main__"]. *)
Definition script : io FS unit :=
  on_files (makedirs "assets/sprites") >>
  on_files (makedirs "assets/sounds") >>
  print stdout_fails "Creating placeholder assets..." >>
  create_placeholder_files >>
  print stdout_fails "Placeholder assets created!".

End Script.

Arguments create_placeholder_files {FS} write_file w.
Arguments script {FS} makedirs write_file stdout_fails w.

(** * Properties *)

(** ** Bytes and 32-bit values *)

Lemma byte_val_range (b : byte) : 0 <= byte_val b <= 255.
Proof.
  unfold byte_val. pose proof (Byte.to_N_bounded b). lia.
Qed.

Lemma lxor_below (n a b : Z) :
  0 <= n -> 0 <= a < 2 ^ n -> 0 <= b < 2 ^ n -> 0 <= Z.lxor a b < 2 ^ n.
Proof.
  intros Hn Ha Hb. split.
  - apply Z.lxor_nonneg. lia.
  - destruct (Z.eq_dec (Z.lxor a b) 0) as [E | NE].
    + rewrite E. lia.
    + assert (0 <= Z.lxor a b) by (apply Z.lxor_nonneg; lia).
      apply Z.log2_lt_pow2; [lia |].
      pose proof (Z.log2_lxor a b ltac:(lia) ltac:(lia)) as Hl.
      assert (La : a = 0 \/ Z.log2 a < n).
      { destruct (Z.eq_dec a 0); [now left | right].
        apply Z.log2_lt_pow2; lia. }
      assert (Lb : b = 0 \/ Z.log2 b < n).
      { destruct (Z.eq_dec b 0); [now left | right].
        apply Z.log2_lt_pow2; lia. }
      destruct La as [-> | La], Lb as [-> | Lb].
      * now rewrite Z.lxor_0_l in NE.
      * rewrite Z.lxor_0_l. exact Lb.
      * rewrite Z.lxor_0_r. exact La.
      * lia.
Qed.

Lemma land_1_odd (c : Z) : Z.land c 1 = if Z.odd c then 1 else 0.
Proof.
  change 1 with (Z.ones 1) at 1. rewrite Z.land_ones by lia.
  change (2 ^ 1) with 2. rewrite Zmod_odd. reflexivity.
Qed.

(** ** The loop of [write_png_chunk] against the reference CRC-32 *)

Lemma crc_step_shift (c : Z) : crc_step c = crc_shift c.
Proof.
  unfold crc_step, crc_shift, crc_poly. rewrite land_1_odd.
  destruct (Z.odd c); simpl; [reflexivity | now rewrite Z.lxor_0_r].
Qed.

Lemma crc_shift_range (c : Z) : 0 <= c < 2 ^ 32 -> 0 <= crc_shift c < 2 ^ 32.
Proof.
  intros Hc. unfold crc_shift. apply lxor_below; [lia | |].
  - rewrite Z.shiftr_div_pow2 by lia. change (2 ^ 1) with 2.
    split; [apply Z.div_pos; lia |].
    apply Z.div_lt_upper_bound; lia.
  - destruct (Z.odd c); unfold crc_poly; lia.
Qed.

Lemma crc_shift_lxor (a b : Z) :
  crc_shift (Z.lxor a b) = Z.lxor (crc_shift a) (crc_shift b).
Proof.
  unfold crc_shift. rewrite Z.shiftr_lxor.
  rewrite <- !Z.bit0_odd, Z.lxor_spec.
  apply Z.bits_inj'. intros n _. rewrite !Z.lxor_spec.
  destruct (Z.testbit a 0), (Z.testbit b 0); simpl;
    rewrite ?Z.lxor_spec, ?Z.bits_0;
    destruct (Z.testbit (Z.shiftr a 1) n), (Z.testbit (Z.shiftr b 1) n),
             (Z.testbit crc_poly n); reflexivity.
Qed.

Lemma iter_crc_shift_lxor (k : nat) (a b : Z) :
  Nat.iter k crc_shift (Z.lxor a b)
  = Z.lxor (Nat.iter k crc_shift a) (Nat.iter k crc_shift b).
Proof.
  induction k as [| k IH]; simpl; [reflexivity |].
  now rewrite IH, crc_shift_lxor.
Qed.

Lemma iter_crc_shift_range (k : nat) (c : Z) :
  0 <= c < 2 ^ 32 -> 0 <= Nat.iter k crc_shift c < 2 ^ 32.
Proof.
  intros Hc. induction k as [| k IH]; simpl; [exact Hc |].
  now apply crc_shift_range.
Qed.

Lemma crc_shift_shiftl (y j : Z) :
  0 <= j -> crc_shift (Z.shiftl y (j + 1)) = Z.shiftl y j.
Proof.
  intros Hj. unfold crc_shift.
  rewrite <- Z.bit0_odd, Z.shiftl_spec_low by lia.
  rewrite Z.lxor_0_r, Z.shiftr_shiftl_l by lia.
  f_equal. lia.
Qed.

Lemma iter_crc_shift_shiftl (k : nat) (y j : Z) :
  0 <= j -> Nat.iter k crc_shift (Z.shiftl y (Z.of_nat k + j)) = Z.shiftl y j.
Proof.
  revert j. induction k as [| k IH]; intros j Hj.
  - reflexivity.
  - rewrite Nat.iter_succ.
    replace (Z.of_nat (S k) + j) with (Z.of_nat k + (j + 1)) by lia.
    rewrite IH by lia. now apply crc_shift_shiftl.
Qed.

Lemma split_low_byte (x : Z) :
  x = Z.lxor (Z.land x 255) (Z.shiftl (Z.shiftr x 8) 8).
Proof.
  apply Z.bits_inj'. intros n Hn.
  rewrite Z.lxor_spec, Z.land_spec. change 255 with (Z.ones 8).
  destruct (Z_lt_le_dec n 8) as [Lo | Hi].
  - rewrite Z.ones_spec_low, Z.shiftl_spec_low by lia.
    now rewrite andb_true_r, xorb_false_r.
  - rewrite Z.ones_spec_high, Z.shiftl_spec, Z.shiftr_spec by lia.
    rewrite andb_false_r, xorb_false_l. f_equal. lia.
Qed.

Lemma land_255_range (x : Z) : 0 <= Z.land x 255 < 256.
Proof.
  change 255 with (Z.ones 8). rewrite Z.land_ones by lia.
  apply Z.mod_pos_bound. lia.
Qed.

Lemma crc_table_nth (i : Z) :
  0 <= i < 256 -> nth (Z.to_nat i) crc_table 0 = Nat.iter 8 crc_shift i.
Proof.
  intros Hi.
  change crc_table with make_crc_table. unfold make_crc_table.
  set (f := fun n : nat => Nat.iter 8 crc_shift (Z.of_nat n)).
  change 0 with (f 0%nat) at 1.
  rewrite map_nth, seq_nth by lia.
  unfold f. f_equal. lia.
Qed.

Lemma iter_crc_step_shift (k : nat) (c : Z) :
  Nat.iter k crc_step c = Nat.iter k crc_shift c.
Proof.
  induction k as [| k IH]; simpl; [reflexivity |].
  now rewrite IH, crc_step_shift.
Qed.

(** One round of the byte loop is one table lookup. *)
Lemma crc_byte_update (c : Z) (b : byte) : crc_byte c b = update_crc c b.
Proof.
  unfold crc_byte, update_crc. rewrite iter_crc_step_shift.
  set (x := Z.lxor c (byte_val b)).
  rewrite (split_low_byte x) at 1.
  rewrite iter_crc_shift_lxor.
  pose proof (iter_crc_shift_shiftl 8 (Z.shiftr x 8) 0 ltac:(lia)) as Hhi.
  change (Z.of_nat 8 + 0) with 8 in Hhi. rewrite Hhi.
  rewrite Z.shiftl_0_r, crc_table_nth by apply land_255_range.
  f_equal. unfold x. rewrite Z.shiftr_lxor.
  pose proof (byte_val_range b).
  rewrite (Z.shiftr_div_pow2 (byte_val b)) by lia.
  rewrite (Z.div_small (byte_val b)) by lia.
  apply Z.lxor_0_r.
Qed.

Lemma fold_crc_byte_update (bs : bytes) (c : Z) :
  fold_left crc_byte bs c = fold_left update_crc bs c.
Proof.
  revert c. induction bs as [| b bs IH]; intros c; simpl; [reflexivity |].
  now rewrite crc_byte_update, IH.
Qed.

(** The value [write_png_chunk] packs is the reference CRC-32. *)
Lemma crc_loop_crc32 (bs : bytes) :
  Z.lxor (crc_loop bs) 0xffffffff = crc32 bs.
Proof.
  unfold crc_loop, crc32. now rewrite fold_crc_byte_update.
Qed.

(** The check value of the CRC-32 catalogue: the ASCII digits 1 to 9. *)
Example crc32_check_value :
  crc32 [x31; x32; x33; x34; x35; x36; x37; x38; x39] = 0xCBF43926.
Proof. reflexivity. Qed.

(** The running value never leaves 32 bits, so packing it cannot raise. *)
Lemma crc_byte_range (c : Z) (b : byte) :
  0 <= c < 2 ^ 32 -> 0 <= crc_byte c b < 2 ^ 32.
Proof.
  intros Hc. unfold crc_byte. rewrite iter_crc_step_shift.
  apply iter_crc_shift_range. pose proof (byte_val_range b).
  apply lxor_below; lia.
Qed.

Lemma fold_crc_byte_range (bs : bytes) (c : Z) :
  0 <= c < 2 ^ 32 -> 0 <= fold_left crc_byte bs c < 2 ^ 32.
Proof.
  revert c. induction bs as [| b bs IH]; intros c Hc; simpl; [exact Hc |].
  apply IH. now apply crc_byte_range.
Qed.

Lemma crc_loop_range (bs : bytes) : 0 <= crc_loop bs < 2 ^ 32.
Proof. unfold crc_loop. apply fold_crc_byte_range. lia. Qed.

Lemma crc32_range (bs : bytes) : 0 <= crc32 bs < 2 ^ 32.
Proof.
  rewrite <- crc_loop_crc32. pose proof (crc_loop_range bs).
  apply lxor_below; lia.
Qed.

(** ** struct.pack *)

Lemma pack_I_ok (v : Z) :
  0 <= v <= 0xffffffff -> Struct.pack_I v = Ok (Struct.be32 v).
Proof.
  intros Hv. unfold Struct.pack_I.
  destruct (Z.leb_spec 0 v), (Z.leb_spec v 0xffffffff); simpl; (reflexivity || lia).
Qed.

Lemma pack_I_raise (v : Z) :
  v < 0 \/ 0xffffffff < v -> Struct.pack_I v = Raise struct_error.
Proof.
  intros Hv. unfold Struct.pack_I.
  destruct (Z.leb_spec 0 v), (Z.leb_spec v 0xffffffff); simpl; (reflexivity || lia).
Qed.

(** The IHDR payload: both dimensions, then the five constant fields. *)
Lemma pack_ihdr_ok (width height : Z) :
  0 <= width <= 0xffffffff -> 0 <= height <= 0xffffffff ->
  Struct.pack_IIBBBBB width height 8 2 0 0 0
  = Ok (Struct.be32 width ++ Struct.be32 height ++ [x08; x02; x00; x00; x00]).
Proof.
  intros Hw Hh. unfold Struct.pack_IIBBBBB.
  rewrite (pack_I_ok width Hw), (pack_I_ok height Hh). reflexivity.
Qed.

Lemma pack_ihdr_raise (width height : Z) :
  width < 0 \/ 0xffffffff < width \/ height < 0 \/ 0xffffffff < height ->
  Struct.pack_IIBBBBB width height 8 2 0 0 0 = Raise struct_error.
Proof.
  intros H. unfold Struct.pack_IIBBBBB.
  destruct (Z_lt_le_dec width 0) as [W0 | W0];
    [rewrite (pack_I_raise width) by lia; reflexivity |].
  destruct (Z_lt_le_dec 0xffffffff width) as [W1 | W1];
    [rewrite (pack_I_raise width) by lia; reflexivity |].
  rewrite (pack_I_ok width) by lia.
  rewrite (pack_I_raise height) by lia. reflexivity.
Qed.

Lemma byte_val_of_Z (z : Z) : byte_val (byte_of_Z z) = Z.land z 255.
Proof.
  unfold byte_val, byte_of_Z. pose proof (land_255_range z) as Hr.
  destruct (Byte.of_N (Z.to_N (Z.land z 255))) as [b |] eqn:E.
  - apply Byte.to_of_N in E. rewrite E. lia.
  - apply Byte.of_N_None_iff in E. lia.
Qed.

(** A field packed with ['>I'] reads back as the value packed. *)
Lemma be_decode_be32 (v : Z) :
  0 <= v <= 0xffffffff -> be_decode (Struct.be32 v) = v.
Proof.
  intros Hv. unfold be_decode, Struct.be32. cbn [fold_left].
  rewrite !byte_val_of_Z. change 255 with (Z.ones 8).
  rewrite !Z.land_ones, !Z.shiftr_div_pow2 by lia.
  change (2 ^ 8) with 256. change (2 ^ 16) with 65536.
  change (2 ^ 24) with 16777216.
  Z.to_euclidean_division_equations. lia.
Qed.

(** ** What [write_png_chunk] does to a binary stream

    On an object whose [write] appends, one call appends one chunk in the
    layout of the format, with the reference CRC-32 of type and data. *)
Lemma write_png_chunk_stream (s : stream) (chunk_type data : bytes) :
  Z.of_nat (length data) <= 0xffffffff ->
  write_png_chunk s chunk_type data
  = Ok (Stream (getvalue s ++ chunk chunk_type data)).
Proof.
  intros Hlen. unfold write_png_chunk, chunk.
  cbn [getattr_write stream_Writable bind].
  rewrite pack_I_ok by lia. cbn [bind getvalue].
  rewrite crc_loop_crc32.
  pose proof (crc32_range (chunk_type ++ data)).
  rewrite pack_I_ok by lia. cbn [bind].
  now rewrite <- !app_assoc.
Qed.

Example write_png_chunk_stream_IEND :
  write_png_chunk (Stream []) IEND []
  = Ok (Stream [x00; x00; x00; x00; x49; x45; x4e; x44; xae; x42; x60; x82]).
Proof. reflexivity. Qed.

(** The three calls of lines 65, 69 and 72, made on a stream that holds the
    signature, leave the signature and the three chunks, 66 bytes in all. *)
Lemma three_chunks_stream (width height : Z) :
  0 <= width <= 0xffffffff -> 0 <= height <= 0xffffffff ->
  (ihdr_data <- Struct.pack_IIBBBBB width height 8 2 0 0 0 ;;
   s <- write_png_chunk (Stream signature) IHDR ihdr_data ;;
   s <- write_png_chunk s IDAT idat_data ;;
   s <- write_png_chunk s IEND [] ;;
   Ok (getvalue s))
  = Ok (signature
        ++ chunk IHDR (Struct.be32 width ++ Struct.be32 height
                       ++ [x08; x02; x00; x00; x00])
        ++ chunk IDAT idat_data
        ++ chunk IEND []).
Proof.
  intros Hw Hh. rewrite pack_ihdr_ok by assumption. cbn [bind].
  rewrite write_png_chunk_stream by (cbn; lia). cbn [bind].
  rewrite write_png_chunk_stream by (cbn; lia). cbn [bind].
  rewrite write_png_chunk_stream by (cbn; lia). cbn [bind getvalue].
  now rewrite <- !app_assoc.
Qed.

Lemma three_chunks_length (ihdr_data : bytes) :
  length ihdr_data = 13%nat ->
  length (signature ++ chunk IHDR ihdr_data ++ chunk IDAT idat_data
          ++ chunk IEND [])
  = 66%nat.
Proof.
  intros H13. unfold chunk. rewrite !length_app, H13. reflexivity.
Qed.

(** The reference image: the same three calls for width 1 and height 1. *)
Example three_chunks_stream_1x1 :
  (ihdr_data <- Struct.pack_IIBBBBB 1 1 8 2 0 0 0 ;;
   s <- write_png_chunk (Stream signature) IHDR ihdr_data ;;
   s <- write_png_chunk s IDAT idat_data ;;
   s <- write_png_chunk s IEND [] ;;
   Ok (getvalue s))
  = Ok [ x89; x50; x4e; x47; x0d; x0a; x1a; x0a;
         x00; x00; x00; x0d; x49; x48; x44; x52;
         x00; x00; x00; x01; x00; x00; x00; x01; x08; x02; x00; x00; x00;
         x90; x77; x53; xde;
         x00; x00; x00; x09; x49; x44; x41; x54;
         x78; x9c; x62; x00; x00; x00; x02; x00; x01;
         xfa; xce; xc8; x14;
         x00; x00; x00; x00; x49; x45; x4e; x44;
         xae; x42; x60; x82 ].
Proof. reflexivity. Qed.

(** ** The outcome of the encoder *)

(** Every call of the encoder ends in one of its two exceptions, and which
    one is decided by the range of the dimensions alone. *)
Lemma create_simple_png_outcome (width height : Z) (color : rgb) :
  create_simple_png width height color
  = if (0 <=? width) && (width <=? 0xffffffff)
       && (0 <=? height) && (height <=? 0xffffffff)
    then Raise AttributeError else Raise struct_error.
Proof.
  unfold create_simple_png.
  destruct (Z.leb_spec 0 width), (Z.leb_spec width 0xffffffff),
           (Z.leb_spec 0 height), (Z.leb_spec height 0xffffffff);
    cbn [andb];
    first [ rewrite pack_ihdr_ok by lia; reflexivity
          | rewrite pack_ihdr_raise by lia; reflexivity ].
Qed.

(** * The claims *)

(** C1. The claim: width 1, height 1 and colour (0,0,0) return the reference
    byte sequence (signature, IHDR, IDAT and IEND chunks with their CRC-32).
    The code returns nothing at this input: the first [write_png_chunk] call
    evaluates [f.write] on the [bytearray] and raises [AttributeError]. *)
Theorem create_simple_png_1x1_raises :
  create_simple_png 1 1 black = Raise AttributeError.
Proof. reflexivity. Qed.

(** C2. The claim: in the returned byte sequence every chunk's stored
    checksum is the standard CRC-32 of its type and payload.  For the bird
    sprite (40 x 40, gold) the encoder raises [AttributeError] and returns no
    byte sequence, so no checksum is ever stored, although the value the loop
    would compute for the IHDR chunk is the reference CRC-32. *)
Theorem bird_png_no_checksum :
  create_simple_png 40 40 gold = Raise AttributeError
  /\ (forall ihdr : bytes,
        Z.lxor (crc_loop (IHDR ++ ihdr)) 0xffffffff = crc32 (IHDR ++ ihdr)).
Proof.
  split; [reflexivity |]. intros ihdr. apply crc_loop_crc32.
Qed.

(** C3. The claim: the IDAT payload of the output is the constant nine bytes
    78 9C 62 00 00 00 02 00 01 for every input.  For the pipe sprite
    (80 x 200, forest green) the encoder raises [AttributeError] in the IHDR
    call, before the statement that writes the IDAT chunk: no IDAT payload
    reaches any output. *)
Theorem pipe_png_no_idat :
  write_png_chunk (extend bytearray_new signature) IDAT idat_data
    = Raise AttributeError
  /\ create_simple_png 80 200 forest_green = Raise AttributeError.
Proof. split; reflexivity. Qed.

(** C4, as amended. The encoder fails for a reason of dimension, the
    [struct.error] of packing the IHDR payload, exactly when the width or the
    height is negative or greater than 4294967295. *)
Theorem create_simple_png_struct_error (width height : Z) (color : rgb) :
  create_simple_png width height color = Raise struct_error
  <-> (width < 0 \/ 0xffffffff < width \/ height < 0 \/ 0xffffffff < height).
Proof.
  rewrite create_simple_png_outcome.
  destruct (Z.leb_spec 0 width), (Z.leb_spec width 0xffffffff),
           (Z.leb_spec 0 height), (Z.leb_spec height 0xffffffff);
    cbn [andb]; split; intros Hx; try reflexivity; try discriminate; lia.
Qed.

(** C4, as stated, fails at two inputs.  Width 4294967296 and height 1 are
    positive, and the call fails for a reason of dimension; width 0 is not
    positive, and the failure of the call is not one of dimension. *)
Lemma create_simple_png_dimension_counterexample :
  (0 < 4294967296 /\ 0 < 1
   /\ create_simple_png 4294967296 1 black = Raise struct_error)
  /\ (0 <= 0 /\ create_simple_png 0 1 black = Raise AttributeError).
Proof. repeat split; reflexivity. Qed.

(** C5. The claim: the IHDR chunk of the output carries the width and the
    height as four big-endian bytes each, then 8, 2, 0, 0, 0.  For the
    background (800 x 600, sky blue) that payload is built, and reads back as
    800 and 600, but the call that should write it raises [AttributeError]:
    the encoder returns no IHDR chunk. *)
Theorem background_png_ihdr_not_written :
  Struct.pack_IIBBBBB 800 600 8 2 0 0 0
    = Ok [x00; x00; x03; x20; x00; x00; x02; x58; x08; x02; x00; x00; x00]
  /\ be_decode [x00; x00; x03; x20] = 800
  /\ be_decode [x00; x00; x02; x58] = 600
  /\ create_simple_png 800 600 sky_blue = Raise AttributeError.
Proof. repeat split; reflexivity. Qed.

(** C6. The claim: for valid dimensions the returned byte sequence begins
    with the signature 89 50 4E 47 0D 0A 1A 0A.  The signature is put into
    the buffer, but the buffer is never returned: every call ends in
    [struct.error] or in [AttributeError]. *)
Theorem signature_buffer_not_returned (width height : Z) (color : rgb) :
  ba_bytes (extend bytearray_new signature) = signature
  /\ (create_simple_png width height color = Raise struct_error
      \/ create_simple_png width height color = Raise AttributeError).
Proof.
  split; [reflexivity |]. rewrite create_simple_png_outcome.
  destruct (_ && _); [now right | now left].
Qed.

(** C7. The claim: the output holds one IHDR, one IDAT and one empty IEND
    chunk, in that order.  The first of the three calls already raises
    [AttributeError] whatever IHDR payload it is given, so the two statements
    after it are never reached and no chunk is emitted. *)
Theorem ihdr_call_raises (ihdr_data : bytes) :
  write_png_chunk (extend bytearray_new signature) IHDR ihdr_data
  = Raise AttributeError.
Proof. reflexivity. Qed.

(** C8. The claim: every chunk is serialized as length, type, payload and
    CRC-32.  On the [bytearray] that the encoder passes, [write_png_chunk]
    raises [AttributeError] at its first statement, for every type and
    payload: nothing is serialized. *)
Theorem write_png_chunk_bytearray_raises
    (f : bytearray) (chunk_type data : bytes) :
  write_png_chunk f chunk_type data = Raise AttributeError.
Proof. reflexivity. Qed.

(** C9. The claim: for every width and height, any two colours yield
    identical byte sequences.  The colour is never read, so any two colours
    give the same outcome; but that outcome is an exception for every width
    and height: neither call yields a byte sequence. *)
Theorem create_simple_png_color_independent
    (width height : Z) (c1 c2 : rgb) :
  create_simple_png width height c1 = create_simple_png width height c2
  /\ exists e : exn, create_simple_png width height c1 = Raise e.
Proof.
  split; [reflexivity |]. rewrite create_simple_png_outcome.
  destruct (_ && _); eexists; reflexivity.
Qed.

(** C10. The claim: every accepted input yields 66 bytes.  No input is
    accepted: for every width, height and colour the call raises. *)
Theorem create_simple_png_always_raises
    (width height : Z) (color : rgb) :
  exists e : exn, create_simple_png width height color = Raise e.
Proof.
  rewrite create_simple_png_outcome.
  destruct (_ && _); eexists; reflexivity.
Qed.

(** * Further properties of the code *)

(** ** The checksum loop as a shift register *)

Lemma testbit_above (n a i : Z) :
  0 <= a < 2 ^ n -> 0 <= n <= i -> Z.testbit a i = false.
Proof.
  intros Ha Hi. rewrite <- (Z.mod_small a (2 ^ n)) by lia.
  apply Z.mod_pow2_bits_high. lia.
Qed.

Lemma lxor_cancel_r (a b p : Z) : Z.lxor a p = Z.lxor b p -> a = b.
Proof.
  intros H. apply (f_equal (fun x => Z.lxor x p)) in H.
  now rewrite !Z.lxor_assoc, Z.lxor_nilpotent, !Z.lxor_0_r in H.
Qed.

Lemma lxor_cancel_l (a b p : Z) : Z.lxor p a = Z.lxor p b -> a = b.
Proof.
  rewrite !(Z.lxor_comm p). apply lxor_cancel_r.
Qed.

(** Bit 31 of the shifted value records the bit shifted out. *)
Lemma crc_shift_bit31 (a : Z) :
  0 <= a < 2 ^ 32 -> Z.testbit (crc_shift a) 31 = Z.odd a.
Proof.
  intros Ha. unfold crc_shift.
  rewrite Z.lxor_spec, Z.shiftr_spec by lia.
  rewrite (testbit_above 32 a (31 + 1)) by lia.
  destruct (Z.odd a); reflexivity.
Qed.

Lemma crc_shift_inj (a b : Z) :
  0 <= a < 2 ^ 32 -> 0 <= b < 2 ^ 32 -> crc_shift a = crc_shift b -> a = b.
Proof.
  intros Ha Hb H.
  assert (Hodd : Z.odd a = Z.odd b).
  { rewrite <- (crc_shift_bit31 a Ha), <- (crc_shift_bit31 b Hb). now rewrite H. }
  unfold crc_shift in H. rewrite Hodd in H. apply lxor_cancel_r in H.
  rewrite !Z.shiftr_div_pow2 in H by lia. change (2 ^ 1) with 2 in H.
  pose proof (Z.div_mod a 2 ltac:(lia)) as Da.
  pose proof (Z.div_mod b 2 ltac:(lia)) as Db.
  rewrite Zmod_odd in Da, Db. rewrite Hodd in Da. lia.
Qed.

Lemma iter_crc_shift_inj (k : nat) (a b : Z) :
  0 <= a < 2 ^ 32 -> 0 <= b < 2 ^ 32 ->
  Nat.iter k crc_shift a = Nat.iter k crc_shift b -> a = b.
Proof.
  intros Ha Hb. induction k as [| k IH]; simpl; [trivial |].
  intros H. apply IH. apply crc_shift_inj; auto using iter_crc_shift_range.
Qed.

Lemma crc_byte_inj (c1 c2 : Z) (b : byte) :
  0 <= c1 < 2 ^ 32 -> 0 <= c2 < 2 ^ 32 ->
  crc_byte c1 b = crc_byte c2 b -> c1 = c2.
Proof.
  intros H1 H2. unfold crc_byte. rewrite !iter_crc_step_shift.
  pose proof (byte_val_range b) as Hb. intros H.
  apply iter_crc_shift_inj in H; [| apply lxor_below; lia ..].
  now apply lxor_cancel_r in H.
Qed.

Lemma fold_crc_byte_inj (bs : bytes) (c1 c2 : Z) :
  0 <= c1 < 2 ^ 32 -> 0 <= c2 < 2 ^ 32 ->
  fold_left crc_byte bs c1 = fold_left crc_byte bs c2 -> c1 = c2.
Proof.
  revert c1 c2. induction bs as [| b bs IH]; intros c1 c2 H1 H2; simpl.
  - trivial.
  - intros H. apply IH in H; [| now apply crc_byte_range ..].
    now apply crc_byte_inj in H.
Qed.

(** Feeding the bytes of [m] one at a time is the same as adding the whole
    window to the running value and shifting eight times per byte. *)
Lemma fold_crc_byte_word (m : bytes) (c : Z) :
  fold_left crc_byte m c
  = Nat.iter (8 * length m) crc_shift (Z.lxor c (le_word m)).
Proof.
  revert c. induction m as [| b m IH]; intros c.
  - simpl. now rewrite Z.lxor_0_r.
  - cbn [fold_left le_word length]. rewrite IH.
    unfold crc_byte. rewrite iter_crc_step_shift.
    pose proof (iter_crc_shift_shiftl 8 (le_word m) 0 ltac:(lia)) as Hw.
    change (Z.of_nat 8 + 0) with 8 in Hw. rewrite Z.shiftl_0_r in Hw.
    rewrite <- Hw at 1. rewrite <- iter_crc_shift_lxor.
    replace (8 * S (length m))%nat with (8 * length m + 8)%nat by lia.
    rewrite Nat.iter_add. now rewrite Z.lxor_assoc.
Qed.

Lemma le_word_range (m : bytes) :
  0 <= le_word m < 2 ^ (8 * Z.of_nat (length m)).
Proof.
  induction m as [| b m IH].
  - simpl. lia.
  - cbn [le_word length]. pose proof (byte_val_range b) as Hb.
    replace (8 * Z.of_nat (S (length m))) with (8 * Z.of_nat (length m) + 8) by lia.
    assert (Hp : 2 ^ (8 * Z.of_nat (length m) + 8)
                 = 2 ^ (8 * Z.of_nat (length m)) * 256).
    { rewrite Z.pow_add_r by lia. reflexivity. }
    apply lxor_below; [lia | lia |].
    rewrite Z.shiftl_mul_pow2 by lia. change (2 ^ 8) with 256. lia.
Qed.

Lemma le_word_32 (m : bytes) :
  (length m <= 4)%nat -> 0 <= le_word m < 2 ^ 32.
Proof.
  intros Hm. pose proof (le_word_range m) as [H0 H1]. split; [exact H0 |].
  eapply Z.lt_le_trans; [exact H1 |].
  apply Z.pow_le_mono_r; lia.
Qed.

Lemma byte_val_inj (b1 b2 : byte) : byte_val b1 = byte_val b2 -> b1 = b2.
Proof.
  unfold byte_val. intros H. apply N2Z.inj in H.
  pose proof (Byte.of_to_N b1) as E1. rewrite H, Byte.of_to_N in E1.
  now injection E1.
Qed.

Lemma le_word_cons_low (b : byte) (w : Z) :
  Z.land (Z.lxor (byte_val b) (Z.shiftl w 8)) 255 = byte_val b.
Proof.
  pose proof (byte_val_range b) as Hb.
  apply Z.bits_inj'. intros n Hn.
  rewrite Z.land_spec, Z.lxor_spec. change 255 with (Z.ones 8).
  destruct (Z_lt_le_dec n 8) as [Lo | Hi].
  - rewrite Z.ones_spec_low, Z.shiftl_spec_low by lia.
    now rewrite andb_true_r, xorb_false_r.
  - rewrite Z.ones_spec_high, andb_false_r by lia.
    symmetry. apply (testbit_above 8); lia.
Qed.

Lemma le_word_cons_high (b : byte) (w : Z) :
  Z.shiftr (Z.lxor (byte_val b) (Z.shiftl w 8)) 8 = w.
Proof.
  pose proof (byte_val_range b) as Hb.
  rewrite Z.shiftr_lxor, Z.shiftr_shiftl_l by lia.
  rewrite (Z.shiftr_div_pow2 (byte_val b)), Z.div_small by lia.
  now rewrite Z.lxor_0_l, Z.shiftl_0_r.
Qed.

Lemma le_word_inj (m1 m2 : bytes) :
  length m1 = length m2 -> le_word m1 = le_word m2 -> m1 = m2.
Proof.
  revert m2. induction m1 as [| b1 m1 IH]; intros [| b2 m2] Hlen H;
    try discriminate; [reflexivity |].
  cbn [le_word] in H.
  assert (Hb : byte_val b1 = byte_val b2).
  { rewrite <- (le_word_cons_low b1 (le_word m1)), H. apply le_word_cons_low. }
  assert (Hw : le_word m1 = le_word m2).
  { rewrite <- (le_word_cons_high b1 (le_word m1)), H. apply le_word_cons_high. }
  f_equal; [now apply byte_val_inj | apply IH; [now injection Hlen | exact Hw]].
Qed.

(** Two windows of at most four bytes, of the same length, fed from the same
    running value, leave the same value only if they are the same bytes. *)
Lemma fold_crc_byte_window (m1 m2 : bytes) (c : Z) :
  0 <= c < 2 ^ 32 -> length m1 = length m2 -> (length m1 <= 4)%nat ->
  fold_left crc_byte m1 c = fold_left crc_byte m2 c -> m1 = m2.
Proof.
  intros Hc Hlen H4. rewrite !fold_crc_byte_word, <- Hlen. intros H.
  pose proof (le_word_32 m1 H4) as W1.
  pose proof (le_word_32 m2 ltac:(lia)) as W2.
  apply iter_crc_shift_inj in H; [| apply lxor_below; lia ..].
  apply lxor_cancel_l in H. now apply le_word_inj.
Qed.

Lemma be32_inj (v1 v2 : Z) :
  0 <= v1 <= 0xffffffff -> 0 <= v2 <= 0xffffffff ->
  Struct.be32 v1 = Struct.be32 v2 -> v1 = v2.
Proof.
  intros H1 H2 H.
  rewrite <- (be_decode_be32 v1 H1), <- (be_decode_be32 v2 H2). now rewrite H.
Qed.

Lemma pack_checksum_ok (bs : bytes) :
  Struct.pack_I (Z.lxor (crc_loop bs) 0xffffffff)
  = Ok (Struct.be32 (Z.lxor (crc_loop bs) 0xffffffff)).
Proof.
  apply pack_I_ok. pose proof (crc_loop_range bs).
  pose proof (lxor_below 32 (crc_loop bs) 0xffffffff). lia.
Qed.

(** ** The checksum of [write_png_chunk] *)

(** X1. The running value of the loop of lines 47-54 never leaves 32 bits,
    whatever the chunk type and the data, so the [struct.pack('>I', ...)] of
    line 55 never raises [struct.error]: it yields four bytes. *)
Theorem checksum_pack_never_raises (chunk_type data : bytes) :
  0 <= crc_loop (chunk_type ++ data) <= 0xffffffff
  /\ exists b0 b1 b2 b3 : byte,
       Struct.pack_I (Z.lxor (crc_loop (chunk_type ++ data)) 0xffffffff)
       = Ok [b0; b1; b2; b3].
Proof.
  split.
  - pose proof (crc_loop_range (chunk_type ++ data)). lia.
  - rewrite pack_checksum_ok. unfold Struct.be32. now eexists _, _, _, _.
Qed.

(** X2. The four checksum bytes of line 55 detect every change confined to
    at most four consecutive bytes of chunk type and data: two checked
    strings that agree before and after such a window, and differ inside it,
    get different checksum bytes. *)
Theorem checksum_detects_short_burst (pre m1 m2 post : bytes) :
  length m1 = length m2 -> (length m1 <= 4)%nat -> m1 <> m2 ->
  Struct.pack_I (Z.lxor (crc_loop (pre ++ m1 ++ post)) 0xffffffff)
  <> Struct.pack_I (Z.lxor (crc_loop (pre ++ m2 ++ post)) 0xffffffff).
Proof.
  intros Hlen H4 Hne. rewrite !pack_checksum_ok. intros H.
  apply Hne. injection H as H.
  assert (E : Struct.be32 (Z.lxor (crc_loop (pre ++ m1 ++ post)) 0xffffffff)
              = Struct.be32 (Z.lxor (crc_loop (pre ++ m2 ++ post)) 0xffffffff)).
  { unfold Struct.be32. congruence. }
  clear H.
  pose proof (crc_loop_range (pre ++ m1 ++ post)) as R1.
  pose proof (crc_loop_range (pre ++ m2 ++ post)) as R2.
  apply be32_inj in E;
    [| pose proof (lxor_below 32 (crc_loop (pre ++ m1 ++ post)) 0xffffffff); lia
     | pose proof (lxor_below 32 (crc_loop (pre ++ m2 ++ post)) 0xffffffff); lia ].
  apply lxor_cancel_r in E. unfold crc_loop in E.
  rewrite !fold_left_app in E.
  pose proof (fold_crc_byte_range pre 0xffffffff ltac:(lia)) as Rp.
  apply fold_crc_byte_inj in E; [| now apply fold_crc_byte_range ..].
  now apply fold_crc_byte_window in E.
Qed.

Lemma checksum_detects_short_burst_witness :
  length [x00; x00; x00; x28] = length [x00; x00; x00; x50]
  /\ (length [x00; x00; x00; x28] <= 4)%nat
  /\ Struct.pack_I
       (Z.lxor (crc_loop (IHDR ++ [x00; x00; x00; x28] ++ [x08; x02]))
               0xffffffff)
     <> Struct.pack_I
          (Z.lxor (crc_loop (IHDR ++ [x00; x00; x00; x50] ++ [x08; x02]))
                  0xffffffff).
Proof.
  split; [reflexivity |]. split; [simpl; lia |].
  apply (checksum_detects_short_burst IHDR [x00; x00; x00; x28]
           [x00; x00; x00; x50] [x08; x02]);
    [reflexivity | simpl; lia | discriminate].
Defined.

(** X3. The checksum that the bit-by-bit loop of lines 47-55 computes over
    chunk type and data is the one of the table-driven CRC-32 of the PNG
    specification, run over the type and continued over the data: one table
    lookup per byte, [table[(c ^ byte) & 0xff] ^ (c >> 8)]. *)
Theorem checksum_table_driven (chunk_type data : bytes) :
  Z.lxor (crc_loop (chunk_type ++ data)) 0xffffffff
  = Z.lxor (fold_left update_crc data
              (fold_left update_crc chunk_type 0xffffffff))
           0xffffffff.
Proof.
  unfold crc_loop. now rewrite fold_crc_byte_update, fold_left_app.
Qed.

(** ** [write_png_chunk] on an object whose [write] appends *)

(** X4. Given a binary stream and data shorter than 2^32 bytes,
    [write_png_chunk] raises nothing and appends, in this order, the length
    of the data as four big-endian bytes, the chunk type, the data, and the
    four checksum bytes: eight bytes more than type and data together. *)
Theorem write_png_chunk_stream_appends
    (s : stream) (chunk_type data : bytes) :
  Z.of_nat (length data) <= 0xffffffff ->
  exists s' : stream,
    write_png_chunk s chunk_type data = Ok s'
    /\ getvalue s'
       = getvalue s ++ Struct.be32 (Z.of_nat (length data)) ++ chunk_type
         ++ data
         ++ Struct.be32 (Z.lxor (crc_loop (chunk_type ++ data)) 0xffffffff)
    /\ length (getvalue s')
       = (length (getvalue s) + length chunk_type + length data + 8)%nat.
Proof.
  intros Hlen. rewrite write_png_chunk_stream by exact Hlen.
  eexists. split; [reflexivity |]. cbn [getvalue]. unfold chunk.
  rewrite crc_loop_crc32. split; [reflexivity |].
  rewrite !length_app. cbn [length Struct.be32]. lia.
Qed.

Lemma write_png_chunk_stream_appends_witness :
  Z.of_nat (length idat_data) <= 0xffffffff
  /\ exists s' : stream,
       write_png_chunk (Stream signature) IDAT idat_data = Ok s'
       /\ getvalue s'
          = getvalue (Stream signature)
            ++ Struct.be32 (Z.of_nat (length idat_data)) ++ IDAT ++ idat_data
            ++ Struct.be32 (Z.lxor (crc_loop (IDAT ++ idat_data)) 0xffffffff)
       /\ length (getvalue s')
          = (length (getvalue (Stream signature)) + length IDAT
             + length idat_data + 8)%nat.
Proof.
  split; [simpl; lia |].
  apply (write_png_chunk_stream_appends (Stream signature) IDAT idat_data).
  simpl; lia.
Defined.

(** ** The IHDR payload of line 64 *)

(** X5. Whenever [struct.pack('>IIBBBBB', width, height, 8, 2, 0, 0, 0)]
    returns, the payload has 13 bytes: the first four read back as the width,
    the next four as the height, and the last five are 8, 2, 0, 0, 0. *)
Theorem ihdr_payload_reads_back (width height : Z) (ihdr_data : bytes) :
  Struct.pack_IIBBBBB width height 8 2 0 0 0 = Ok ihdr_data ->
  length ihdr_data = 13%nat
  /\ be_decode (firstn 4 ihdr_data) = width
  /\ be_decode (firstn 4 (skipn 4 ihdr_data)) = height
  /\ skipn 8 ihdr_data = [x08; x02; x00; x00; x00].
Proof.
  intros H.
  destruct (Z_lt_le_dec width 0) as [W0 | W0];
    [rewrite pack_ihdr_raise in H by lia; discriminate |].
  destruct (Z_lt_le_dec 0xffffffff width) as [W1 | W1];
    [rewrite pack_ihdr_raise in H by lia; discriminate |].
  destruct (Z_lt_le_dec height 0) as [H0 | H0];
    [rewrite pack_ihdr_raise in H by lia; discriminate |].
  destruct (Z_lt_le_dec 0xffffffff height) as [H1 | H1];
    [rewrite pack_ihdr_raise in H by lia; discriminate |].
  rewrite pack_ihdr_ok in H by lia. injection H as <-.
  split; [reflexivity |].
  split; [apply (be_decode_be32 width); lia |].
  split; [apply (be_decode_be32 height); lia | reflexivity].
Qed.

Lemma ihdr_payload_reads_back_witness :
  Struct.pack_IIBBBBB 800 600 8 2 0 0 0
    = Ok [x00; x00; x03; x20; x00; x00; x02; x58; x08; x02; x00; x00; x00]
  /\ length [x00; x00; x03; x20; x00; x00; x02; x58; x08; x02; x00; x00; x00]
     = 13%nat.
Proof.
  split; [reflexivity |].
  apply (ihdr_payload_reads_back 800 600
           [x00; x00; x03; x20; x00; x00; x02; x58; x08; x02; x00; x00; x00]).
  reflexivity.
Defined.

(** ** The callers: [create_placeholder_files] and the script *)

(** X6. [create_placeholder_files] writes no file: on every file system, and
    whatever opening and writing a file would do, it raises the
    [AttributeError] of its first encoder call and leaves the file system
    and standard output as they were. *)
Theorem create_placeholder_files_writes_nothing
    (FS : Type) (write_file : string -> bytes -> FS -> outcome unit * FS)
    (w : world FS) :
  create_placeholder_files write_file w = (Raised (Encoder AttributeError), w).
Proof. reflexivity. Qed.

(** X7. Run as a script, the module never ends normally and never prints its
    closing message: it raises, having printed nothing or only the opening
    message.  When both [os.makedirs] calls return, the file system is left
    as they made it, with no file written; the exception is then the
    [AttributeError] of the encoder if the opening message could be printed,
    and the [OSError] of [print] if it could not. *)
Theorem script_never_completes
    (FS : Type) (makedirs : string -> FS -> outcome unit * FS)
    (write_file : string -> bytes -> FS -> outcome unit * FS)
    (stdout_fails : string -> list string -> bool)
    (w : world FS) :
  exists (e : raised) (w' : world FS),
    script makedirs write_file stdout_fails w = (Raised e, w')
    /\ (stdout w' = stdout w
        \/ stdout w' = stdout w ++ ["Creating placeholder assets..."%string])
    /\ (forall f1 f2 : FS,
          makedirs "assets/sprites"%string (files w) = (Returned tt, f1) ->
          makedirs "assets/sounds"%string f1 = (Returned tt, f2) ->
          files w' = f2
          /\ (stdout_fails "Creating placeholder assets..."%string (stdout w)
                = false ->
              e = Encoder AttributeError
              /\ stdout w'
                 = stdout w ++ ["Creating placeholder assets..."%string])
          /\ (stdout_fails "Creating placeholder assets..."%string (stdout w)
                = true ->
              e = OSError /\ stdout w' = stdout w)).
Proof.
  unfold script, io_bind, on_files, print.
  destruct (makedirs "assets/sprites"%string (files w)) as [[[] | e1] f1] eqn:E1.
  - cbn [files stdout].
    destruct (makedirs "assets/sounds"%string f1) as [[[] | e2] f2] eqn:E2.
    + cbn [files stdout].
      destruct (stdout_fails "Creating placeholder assets..."%string (stdout w))
        eqn:Ep.
      * eexists _, _. split; [reflexivity |]. cbn [files stdout].
        split; [now left |]. intros g1 g2 G1 G2.
        injection G1 as <-. rewrite E2 in G2. injection G2 as <-.
        split; [reflexivity |]. split; [discriminate | now split].
      * eexists _, _. split; [reflexivity |]. cbn [files stdout].
        split; [now right |]. intros g1 g2 G1 G2.
        injection G1 as <-. rewrite E2 in G2. injection G2 as <-.
        split; [reflexivity |]. split; [now split | discriminate].
    + eexists _, _. split; [reflexivity |]. cbn [files stdout].
      split; [now left |]. intros g1 g2 G1 G2.
      injection G1 as <-. rewrite E2 in G2. discriminate.
  - eexists _, _. split; [reflexivity |]. cbn [files stdout].
    split; [now left |]. intros g1 g2 G1 G2. discriminate.
Qed.

Lemma script_never_completes_witness :
  exists (e : raised) (w' : world (list string)),
    script (fun path dirs => (Returned tt, dirs ++ [path]))
           (fun path data dirs => (Raised OSError, dirs))
           (fun line printed => false)
           (World [] [])
    = (Raised e, w')
    /\ (stdout w' = stdout (World (@nil string) [])
        \/ stdout w'
           = stdout (World (@nil string) [])
             ++ ["Creating placeholder assets..."%string])
    /\ (forall f1 f2 : list string,
          (Returned tt, [] ++ ["assets/sprites"%string]) = (Returned tt, f1) ->
          (Returned tt, f1 ++ ["assets/sounds"%string]) = (Returned tt, f2) ->
          files w' = f2
          /\ (false = false ->
              e = Encoder AttributeError
              /\ stdout w'
                 = stdout (World (@nil string) [])
                   ++ ["Creating placeholder assets..."%string])
          /\ (false = true ->
              e = OSError /\ stdout w' = stdout (World (@nil string) []))).
Proof.
  apply (script_never_completes (list string)
           (fun path dirs => (Returned tt, dirs ++ [path]))
           (fun path data dirs => (Raised OSError, dirs))
           (fun line printed => false)
           (World [] [])).
Defined.

(** The other branch: when the opening message cannot be printed, the script
    ends in [OSError] after the two directories are made. *)
Example script_print_fails :
  script (fun path dirs => (Returned tt, dirs ++ [path]))
         (fun path data dirs => (Raised OSError, dirs))
         (fun line printed => true)
         (World [] [])
  = (Raised OSError,
     World ["assets/sprites"%string; "assets/sounds"%string] []).
Proof. reflexivity. Qed.

(** ** [create_png] *)

(** X8. [create_png] does not use its arguments: for every width, height and
    colour it returns the same 70 bytes, the signature followed by an IHDR,
    an IDAT and an empty IEND chunk, each framed and checksummed as
    [write_png_chunk] is written to do; the IHDR declares 1 x 1 pixels of
    8-bit RGBA whatever size is asked for. *)
Theorem create_png_is_1x1 (width height : Z) (color : rgb) :
  create_png width height color
  = Decoded
      (signature
       ++ framed IHDR (Struct.be32 1 ++ Struct.be32 1
                       ++ [x08; x06; x00; x00; x00])
       ++ framed IDAT [x78; xda; x63; x64; x60; xf8; x5f; x0f; x00; x02;
                       x87; x01; x80]
       ++ framed IEND []).
Proof. vm_compute. reflexivity. Qed.
